(** * ModelReviews: the review gallery and its moderation workflow

    A shallow embedding of
    [src/components/Model/ModelReviews/ModelReviews.tsx]: the element
    trees returned by [ModelReviews] and [ReviewItem], and the effects of
    the delete and report handlers on the modal manager, the notification
    queue, the router and the query cache. *)

From Stdlib Require Import ZArith QArith String List Bool Lia.
Import ListNotations.
Local Open Scope string_scope.
Local Open Scope list_scope.
Local Open Scope Z_scope.

(** ** Data model *)

(** [ReportReason] of [@prisma/client]; the members this component uses. *)
Inductive ReportReason : Type :=
| NSFW
| TOSViolation.

(** [review.user], also the argument of [UserAvatar]. *)
Record User : Type := mkUser {
  user_id : Z;
  username : option string
}.

(** The [image] of one entry of [review.imagesOnReviews]. *)
Record Image : Type := mkImage {
  image_id : Z;
  image_url : string;
  image_name : option string;
  image_hash : option string
}.

Record ImageOnReview : Type := mkImageOnReview {
  image : Image
}.

Record ModelVersion : Type := mkModelVersion {
  version_name : string
}.

(** [ReviewDetails]: the fields [ReviewItem] reads. *)
Record ReviewDetails : Type := mkReview {
  review_id : Z;
  modelId : Z;
  user : User;
  rating : Q;
  text : option string;
  nsfw : bool;
  modelVersion : option ModelVersion;
  imagesOnReviews : list ImageOnReview
}.

(** The session of [useSession]: [data] is [null] for an anonymous
    visitor, and both [user] and [id] are read through [?.]. *)
Record SessionUser : Type := mkSessionUser {
  session_user_id : option Z
}.

Record Session : Type := mkSession {
  session_user : option SessionUser
}.

(** [session?.user?.id]: [None] stands for [undefined]. *)
Definition session_id (session : option Session) : option Z :=
  match session with
  | None => None
  | Some s =>
      match session_user s with
      | None => None
      | Some u => session_user_id u
      end
  end.

(** [a === b] for a number-or-undefined left operand and a number on the
    right. *)
Definition strict_eq (a : option Z) (b : Z) : bool :=
  match a with
  | Some x => Z.eqb x b
  | None => false
  end.

(** [!s] for a string-or-null operand: [null] and the empty string are
    falsy. *)
Definition not_text (s : option string) : bool :=
  match s with
  | None => true
  | Some t => String.eqb t ""
  end.

(** What the hooks at the top of [ReviewItem] hand to one render:
    [useSession().data], [useRouter().asPath] and
    [deleteMutation.isLoading]. *)
Record Hooks : Type := mkHooks {
  session : option Session;
  asPath : string;
  deleteIsLoading : bool
}.

(** ** Element trees *)

(** The click handlers of the menu, as the closures the source binds. *)
Inductive Handler : Type :=
| handleDeleteReviewH
| handleReportReviewH (reason : ReportReason).

Inductive Icon : Type :=
| IconTrash
| IconFlag.

Record MenuItem : Type := mkMenuItem {
  item_icon : Icon;
  item_color : option string;
  item_onClick : Handler;
  item_label : string
}.

Record Slide : Type := mkSlide {
  slide_key : Z;
  slide_src : string;
  slide_alt : string
}.

Record CarouselEl : Type := mkCarousel {
  withControls : bool;
  draggable : bool;
  loop : bool;
  slides : list Slide
}.

(** The child of [Card.Section]: the carousel itself, or the carousel
    wrapped in [SensitiveContent] with its placeholder. *)
Inductive SectionBody : Type :=
| Plain (c : CarouselEl)
| SensitiveContent (placeholder : option Image) (children : CarouselEl).

Record CardSection : Type := mkCardSection {
  section_body : SectionBody;
  section_badge : option nat
}.

Record RatingEl : Type := mkRating {
  rating_value : Q;
  rating_fractions : Z;
  rating_size : option string;
  rating_alignSelf : option string;
  rating_readOnly : bool
}.

Record CardEl : Type := mkCard {
  card_avatar : User;
  card_menu : list MenuItem;
  card_rating : RatingEl;
  card_section : option CardSection;
  card_text : option string
}.

(** [x ?? d] *)
Definition nullish {A : Type} (x : option A) (d : A) : A :=
  match x with
  | Some v => v
  | None => d
  end.

Section ReviewItemRender.

Variable hooks : Hooks.
Variable review : ReviewDetails.

Definition isOwner : bool :=
  strict_eq (session_id (session hooks)) (user_id (user review)).

Definition hasImages : bool :=
  (0 <? length (imagesOnReviews review))%nat.

Definition hasMultipleImages : bool :=
  (1 <? length (imagesOnReviews review))%nat.

Definition firstImage : option Image :=
  if hasImages then
    match imagesOnReviews review with
    | i :: _ => Some (image i)
    | [] => None
    end
  else None.

Definition carousel : CarouselEl :=
  {| withControls := hasMultipleImages;
     draggable := hasMultipleImages;
     loop := true;
     slides :=
       map (fun i =>
              {| slide_key := image_id (image i);
                 slide_src := image_url (image i);
                 slide_alt :=
                   nullish (image_name (image i))
                     "Visual representation of the user review" |})
           (imagesOnReviews review) |}.

Definition session_absent : bool :=
  match session hooks with
  | None => true
  | Some _ => false
  end.

(** The children of [Menu.Dropdown]; a [null] branch contributes no
    item. *)
Definition menu_dropdown : list MenuItem :=
  (if isOwner then
     [ {| item_icon := IconTrash;
          item_color := Some "red";
          item_onClick := handleDeleteReviewH;
          item_label := "Delete review" |} ]
   else [])
  ++
  (if session_absent || negb isOwner then
     [ {| item_icon := IconFlag;
          item_color := None;
          item_onClick := handleReportReviewH NSFW;
          item_label := "Report as NSFW" |};
       {| item_icon := IconFlag;
          item_color := None;
          item_onClick := handleReportReviewH TOSViolation;
          item_label := "Report as Terms Violation" |} ]
   else []).

Definition rating_el : RatingEl :=
  {| rating_value := rating review;
     rating_fractions := 2;
     rating_size :=
       if negb hasImages && not_text (text review) then Some "xl" else None;
     rating_alignSelf :=
       if negb hasImages && not_text (text review) then Some "center"
       else None;
     rating_readOnly := true |}.

(** [hasImages && <Card.Section>...</Card.Section>] *)
Definition card_section_el : option CardSection :=
  if hasImages then
    Some {| section_body :=
              if nsfw review then SensitiveContent firstImage carousel
              else Plain carousel;
            section_badge :=
              if hasMultipleImages
              then Some (length (imagesOnReviews review))
              else None |}
  else None.

Definition ReviewItem : CardEl :=
  {| card_avatar := user review;
     card_menu := menu_dropdown;
     card_rating := rating_el;
     card_section := card_section_el;
     card_text := text review |}.

End ReviewItemRender.

(** The body of the grid column of [ModelReviews]. *)
Inductive RenderFn : Type :=
| ReviewItemFn.

Inductive GridBody : Type :=
| MasonryGrid (items : list ReviewDetails) (render : RenderFn)
| Paper (title : string) (hint : string).

Record ModelReviewsEl : Type := mkModelReviews {
  overlay_visible : bool;
  grid_body : GridBody
}.

Definition ModelReviews (items : list ReviewDetails) (loading : bool)
  : ModelReviewsEl :=
  {| overlay_visible := loading;
     grid_body :=
       if (0 <? length items)%nat then MasonryGrid items ReviewItemFn
       else Paper "There are no reviews for this model yet."
                  "Be the first to let the people know about this model by leaving your review." |}.

(** ** Effects *)

(** The error a tRPC mutation rejects with; the handlers read [message]. *)
Record TRPCClientError : Type := mkError {
  message : string
}.

(** How the remote call of a mutation settles. *)
Inductive Outcome : Type :=
| Resolved
| Rejected (error : TRPCClientError).

(** [status] of a react-query mutation. *)
Inductive MutationStatus : Type :=
| Idle
| Loading
| Success
| Error.

Definition isLoading (s : MutationStatus) : bool :=
  match s with
  | Loading => true
  | _ => false
  end.

(** The argument of Mantine's [showNotification]; [autoClose: false] is
    [None]. *)
Record NotificationProps : Type := mkNotificationProps {
  n_id : option string;
  n_loading : bool;
  n_disallowClose : bool;
  n_autoClose : option Z;
  n_message : string
}.

(** The argument of [showErrorNotification]: [error] is
    [new Error(error.message)], kept as its message. *)
Record ErrorNotification : Type := mkErrorNotification {
  e_error : string;
  e_title : option string;
  e_reason : option string
}.

(** The argument of [showSuccessNotification]. *)
Record SuccessNotification : Type := mkSuccessNotification {
  s_title : string;
  s_message : string
}.

(** What a confirm modal runs on confirm: the closure
    [() => deleteMutation.mutate({ id: review.id })] of the render that
    opened it. *)
Inductive Callback : Type :=
| deleteMutate (review : ReviewDetails).

Record ConfirmProps : Type := mkConfirmProps {
  confirm_color : string;
  confirm_loading : bool
}.

(** The argument of Mantine's [openConfirmModal]. The object literal is
    evaluated when the call is made, so [confirmProps.loading] is the
    boolean [deleteMutation.isLoading] had in the render whose handler
    opened the modal. *)
Record ConfirmModalSettings : Type := mkConfirmModal {
  modal_title : string;
  modal_children : string;
  modal_centered : bool;
  label_confirm : string;
  label_cancel : string;
  confirmProps : ConfirmProps;
  closeOnConfirm : option bool;
  closeOnCancel : option bool;
  onConfirm : option Callback;
  onCancel : option Callback
}.

(** A modal of the application-wide modals manager: a confirm modal, or
    any modal another part of the application opened. *)
Inductive Modal : Type :=
| ConfirmModal (settings : ConfirmModalSettings)
| OtherModal (name : string).

(** An entry of the notification queue, by the call that put it there. *)
Inductive Notification : Type :=
| Shown (props : NotificationProps)
| ErrorShown (args : ErrorNotification)
| SuccessShown (args : SuccessNotification).

(** The calls the component makes on its collaborators. *)
Inductive Effect : Type :=
| invalidate (model : Z)
| closeAllModalsE
| openConfirmModalE (settings : ConfirmModalSettings)
| showNotificationE (props : NotificationProps)
| hideNotificationE (id : string)
| showErrorNotificationE (args : ErrorNotification)
| showSuccessNotificationE (args : SuccessNotification)
| routerPush (url : string)
| reviewDelete (id : Z)
| reviewReport (id : Z) (reason : ReportReason).

(** The state the handlers act on: the open modals with their ids, the
    notification queue, the status of the two mutations of this
    [ReviewItem], and the calls made so far, oldest first. *)
Record World : Type := mkWorld {
  modals : list (nat * Modal);
  nextModalId : nat;
  notifications : list Notification;
  deleteStatus : MutationStatus;
  reportStatus : MutationStatus;
  log : list Effect
}.

Definition M (A : Type) : Type := World -> A * World.

Definition ret {A : Type} (a : A) : M A := fun w => (a, w).

Definition bind {A B : Type} (c : M A) (k : A -> M B) : M B :=
  fun w => let (a, w') := c w in k a w'.

Notation "x <- c ;; k" := (bind c (fun x => k))
  (at level 61, c at next level, right associativity).
Notation "c ;; k" := (bind c (fun _ => k))
  (at level 61, right associativity).

Definition exec {A : Type} (c : M A) (w : World) : World := snd (c w).

Definition emit (e : Effect) : M unit :=
  fun w => (tt, {| modals := modals w; nextModalId := nextModalId w;
                   notifications := notifications w;
                   deleteStatus := deleteStatus w;
                   reportStatus := reportStatus w;
                   log := log w ++ [e] |}).

Definition setModals (f : World -> list (nat * Modal) * nat) : M unit :=
  fun w => (tt, {| modals := fst (f w); nextModalId := snd (f w);
                   notifications := notifications w;
                   deleteStatus := deleteStatus w;
                   reportStatus := reportStatus w;
                   log := log w |}).

Definition setNotifications (f : list Notification -> list Notification)
  : M unit :=
  fun w => (tt, {| modals := modals w; nextModalId := nextModalId w;
                   notifications := f (notifications w);
                   deleteStatus := deleteStatus w;
                   reportStatus := reportStatus w;
                   log := log w |}).

Definition setDeleteStatus (s : MutationStatus) : M unit :=
  fun w => (tt, {| modals := modals w; nextModalId := nextModalId w;
                   notifications := notifications w;
                   deleteStatus := s;
                   reportStatus := reportStatus w;
                   log := log w |}).

Definition setReportStatus (s : MutationStatus) : M unit :=
  fun w => (tt, {| modals := modals w; nextModalId := nextModalId w;
                   notifications := notifications w;
                   deleteStatus := deleteStatus w;
                   reportStatus := s;
                   log := log w |}).

(** ** The collaborators *)

(** Mantine's modals manager. [openConfirmModal] stores the settings it
    is given under a fresh id; [closeModal] removes one modal;
    [closeAllModals] empties the manager. *)
Definition openConfirmModal (settings : ConfirmModalSettings) : M unit :=
  emit (openConfirmModalE settings) ;;
  setModals (fun w =>
    (modals w ++ [(nextModalId w, ConfirmModal settings)],
     S (nextModalId w))).

Definition closeModal (id : nat) : M unit :=
  setModals (fun w =>
    (filter (fun m => negb (Nat.eqb (fst m) id)) (modals w),
     nextModalId w)).

Definition closeAllModals : M unit :=
  emit closeAllModalsE ;;
  setModals (fun w => ([], nextModalId w)).

(** Mantine's notification queue. [showNotification] ignores a
    notification whose id is already in the queue; [hideNotification]
    removes the notifications under the id. A notification put there by
    one of the helpers below has no id of the caller's. *)
Definition notification_id (n : Notification) : option string :=
  match n with
  | Shown props => n_id props
  | ErrorShown _ => None
  | SuccessShown _ => None
  end.

Definition has_id (id : string) (n : Notification) : bool :=
  match notification_id n with
  | Some i => String.eqb i id
  | None => false
  end.

Definition showNotification (props : NotificationProps) : M unit :=
  emit (showNotificationE props) ;;
  setNotifications (fun q =>
    match n_id props with
    | Some id => if existsb (has_id id) q then q else q ++ [Shown props]
    | None => q ++ [Shown props]
    end).

Definition hideNotification (id : string) : M unit :=
  emit (hideNotificationE id) ;;
  setNotifications (filter (fun n => negb (has_id id n))).

(** Modelled from the spec: [showErrorNotification] and
    [showSuccessNotification] of [~/utils/notifications], whose bodies
    are not in this file. Each raises one notification of its kind on the
    notification channel from the arguments it is given; it is given no
    key. *)
Definition showErrorNotification (args : ErrorNotification) : M unit :=
  emit (showErrorNotificationE args) ;;
  setNotifications (fun q => q ++ [ErrorShown args]).

Definition showSuccessNotification (args : SuccessNotification) : M unit :=
  emit (showSuccessNotificationE args) ;;
  setNotifications (fun q => q ++ [SuccessShown args]).

(** [router.push(url)] *)
Definition router_push (url : string) : M unit := emit (routerPush url).

(** [queryUtils.review.getAll.invalidate({ modelId })] *)
Definition review_getAll_invalidate (model : Z) : M unit :=
  emit (invalidate model).

(** react-query's mutation. [mutate] marks the mutation loading, runs
    [onMutate] and sends the request; when a request settles, its
    [onSuccess] or [onError] runs, then its [onSettled]. The status the
    hook reports is the one of the request of the latest [mutate]:
    [mutation_settle] is the settlement of that request, after which the
    hook reports success or error; [mutation_settle_earlier] is the
    settlement of a request sent before the latest [mutate], after which
    the hook still reports the status of the later request. An option
    left out is not called. *)
Record MutationOptions : Type := mkMutationOptions {
  onMutate : option (M unit);
  onSuccess : option (M unit);
  onError : option (TRPCClientError -> M unit);
  onSettled : option (M unit)
}.

Definition call (cb : option (M unit)) : M unit :=
  match cb with
  | Some c => c
  | None => ret tt
  end.

Definition call1 {A : Type} (cb : option (A -> M unit)) (a : A) : M unit :=
  match cb with
  | Some c => c a
  | None => ret tt
  end.

Definition mutation_mutate (setStatus : MutationStatus -> M unit)
  (options : MutationOptions) (request : Effect) : M unit :=
  setStatus Loading ;;
  call (onMutate options) ;;
  emit request.

Definition mutation_settle (setStatus : MutationStatus -> M unit)
  (options : MutationOptions) (outcome : Outcome) : M unit :=
  match outcome with
  | Resolved =>
      call (onSuccess options) ;;
      call (onSettled options) ;;
      setStatus Success
  | Rejected error =>
      call1 (onError options) error ;;
      call (onSettled options) ;;
      setStatus Error
  end.

Definition mutation_settle_earlier (options : MutationOptions)
  (outcome : Outcome) : M unit :=
  match outcome with
  | Resolved =>
      call (onSuccess options) ;;
      call (onSettled options)
  | Rejected error =>
      call1 (onError options) error ;;
      call (onSettled options)
  end.

(** ** The handlers of [ReviewItem] *)

Section ReviewItemHandlers.

Variable hooks : Hooks.
Variable review : ReviewDetails.

Definition deleteMutation : MutationOptions :=
  {| onMutate := None;
     onSuccess := Some (
       review_getAll_invalidate (modelId review) ;;
       closeAllModals);
     onError := Some (fun error =>
       showErrorNotification
         {| e_error := message error;
            e_title := Some "Could not delete review";
            e_reason := None |});
     onSettled := None |}.

(** [deleteMutation.mutate({ id: review.id })] and its settlement. *)
Definition deleteMutation_mutate : M unit :=
  mutation_mutate setDeleteStatus deleteMutation
    (reviewDelete (review_id review)).

Definition deleteMutation_settle (outcome : Outcome) : M unit :=
  mutation_settle setDeleteStatus deleteMutation outcome.

Definition handleDeleteReview : M unit :=
  openConfirmModal
    {| modal_title := "Delete Review";
       modal_children :=
         "Are you sure you want to delete this model? This action is destructive and cannot be reverted.";
       modal_centered := true;
       label_confirm := "Delete Review";
       label_cancel := "No, don't delete it";
       confirmProps :=
         {| confirm_color := "red";
            confirm_loading := deleteIsLoading hooks |};
       closeOnConfirm := Some false;
       closeOnCancel := None;
       onConfirm := Some (deleteMutate review);
       onCancel := None |}.

Definition reportMutation : MutationOptions :=
  {| onMutate := Some (
       showNotification
         {| n_id := Some "sending-review-report";
            n_loading := true;
            n_disallowClose := true;
            n_autoClose := None;
            n_message := "Sending report..." |});
     onSuccess := Some (
       review_getAll_invalidate (modelId review) ;;
       showSuccessNotification
         {| s_title := "Review reported";
            s_message := "Your request has been received" |});
     onError := Some (fun error =>
       showErrorNotification
         {| e_error := message error;
            e_title := Some "Unable to send report";
            e_reason :=
              Some "An unexpected error occurred, please try again" |});
     onSettled := Some (hideNotification "sending-review-report") |}.

(** [reportMutation.mutate({ id: review.id, reason })] and its
    settlement. *)
Definition reportMutation_mutate (reason : ReportReason) : M unit :=
  mutation_mutate setReportStatus reportMutation
    (reviewReport (review_id review) reason).

Definition reportMutation_settle (outcome : Outcome) : M unit :=
  mutation_settle setReportStatus reportMutation outcome.

(** The settlement of a report that a later report of the same card has
    overtaken. *)
Definition reportMutation_settle_earlier (outcome : Outcome) : M unit :=
  mutation_settle_earlier reportMutation outcome.

Definition handleReportReview (reason : ReportReason) : M unit :=
  match session hooks with
  | None => router_push ("/login?returnUrl=" ++ asPath hooks)%string
  | Some _ => reportMutation_mutate reason
  end.

(** A click on a menu item runs the handler bound to it. *)
Definition click (h : Handler) : M unit :=
  match h with
  | handleDeleteReviewH => handleDeleteReview
  | handleReportReviewH reason => handleReportReview reason
  end.

End ReviewItemHandlers.

(** The hooks of a render of [ReviewItem] in world [w]. *)
Definition useHooks (s : option Session) (path : string) (w : World)
  : Hooks :=
  {| session := s;
     asPath := path;
     deleteIsLoading := isLoading (deleteStatus w) |}.

(** ** The confirm modal *)

Definition run_callback (cb : option Callback) : M unit :=
  match cb with
  | Some (deleteMutate review) => deleteMutation_mutate review
  | None => ret tt
  end.

(** The confirm and cancel buttons of Mantine's [ConfirmModal]: each
    runs its callback when there is one, then closes the modal unless
    [closeOnConfirm] / [closeOnCancel] is [false] (they default to
    [true]). *)
Definition handleConfirm (id : nat) (settings : ConfirmModalSettings)
  : M unit :=
  run_callback (onConfirm settings) ;;
  if nullish (closeOnConfirm settings) true then closeModal id else ret tt.

Definition handleCancel (id : nat) (settings : ConfirmModalSettings)
  : M unit :=
  run_callback (onCancel settings) ;;
  if nullish (closeOnCancel settings) true then closeModal id else ret tt.

(** The confirm modals that are open, and whether their confirm button
    shows as busy. *)
Definition confirm_modals (w : World) : list (nat * ConfirmModalSettings) :=
  flat_map (fun m =>
              match snd m with
              | ConfirmModal s => [(fst m, s)]
              | OtherModal _ => []
              end) (modals w).

Definition confirm_busy (s : ConfirmModalSettings) : bool :=
  confirm_loading (confirmProps s).

(** ** Reading the log *)

Definition is_invalidate (e : Effect) : bool :=
  match e with
  | invalidate _ => true
  | _ => false
  end.

Definition is_request (e : Effect) : bool :=
  match e with
  | reviewDelete _ => true
  | reviewReport _ _ => true
  | _ => false
  end.


(** Whether the notification under the key is on the queue. *)
Definition visible (id : string) (w : World) : bool :=
  existsb (has_id id) (notifications w).

(** Whether the menu offers a choice bound to the handler. *)
Definition offers (h : Handler) (menu : list MenuItem) : Prop :=
  exists item, In item menu /\ item_onClick item = h.

(** One delete invocation: the request is sent and settles. *)
Definition delete_invocation (review : ReviewDetails) (outcome : Outcome)
  : M unit :=
  deleteMutation_mutate review ;;
  deleteMutation_settle review outcome.


(** The carousel inside the image region. *)
Definition carousel_of (b : SectionBody) : CarouselEl :=
  match b with
  | Plain c => c
  | SensitiveContent _ c => c
  end.



Definition review_reported : SuccessNotification :=
  {| s_title := "Review reported";
     s_message := "Your request has been received" |}.

Definition unable_to_send (error : TRPCClientError) : ErrorNotification :=
  {| e_error := message error;
     e_title := Some "Unable to send report";
     e_reason := Some "An unexpected error occurred, please try again" |}.

Definition could_not_delete (error : TRPCClientError) : ErrorNotification :=
  {| e_error := message error;
     e_title := Some "Could not delete review";
     e_reason := None |}.

(** The review and the owner of the scenario of the specification: review
    7 of author 1, without images. *)
Definition review7 : ReviewDetails :=
  {| review_id := 7;
     modelId := 3;
     user := {| user_id := 1; username := Some "u1" |};
     rating := 9 # 2;
     text := Some "Great";
     nsfw := false;
     modelVersion := None;
     imagesOnReviews := [] |}.

Definition owner_session : option Session :=
  Some {| session_user := Some {| session_user_id := Some 1 |} |}.

Definition world0 : World :=
  {| modals := [];
     nextModalId := 0;
     notifications := [];
     deleteStatus := Idle;
     reportStatus := Idle;
     log := [] |}.

(** The settings [handleDeleteReview] passes to [openConfirmModal]. *)
Definition delete_settings (hooks : Hooks) (review : ReviewDetails)
  : ConfirmModalSettings :=
  {| modal_title := "Delete Review";
     modal_children :=
       "Are you sure you want to delete this model? This action is destructive and cannot be reverted.";
     modal_centered := true;
     label_confirm := "Delete Review";
     label_cancel := "No, don't delete it";
     confirmProps :=
       {| confirm_color := "red";
          confirm_loading := deleteIsLoading hooks |};
     closeOnConfirm := Some false;
     closeOnCancel := None;
     onConfirm := Some (deleteMutate review);
     onCancel := None |}.

(** A click on the confirm or the cancel button of the modal with the
    given id; the settings are the ones the manager stored when the modal
    was opened. *)
Definition stored_settings (id : nat) (w : World)
  : option ConfirmModalSettings :=
  match find (fun m => Nat.eqb (fst m) id) (confirm_modals w) with
  | Some m => Some (snd m)
  | None => None
  end.

Definition clickConfirm (id : nat) : M unit :=
  fun w =>
    match stored_settings id w with
    | Some settings => handleConfirm id settings w
    | None => (tt, w)
    end.

Definition clickCancel (id : nat) : M unit :=
  fun w =>
    match stored_settings id w with
    | Some settings => handleCancel id settings w
    | None => (tt, w)
    end.

(** The owner of [review7] opens the delete confirmation while no delete
    is running, and confirms. *)
Definition owner_confirms_delete : World :=
  let hooks := useHooks owner_session "/models/3" world0 in
  exec (click hooks review7 handleDeleteReviewH ;; clickConfirm 0) world0.

(** A review of the same author with two images. *)
Definition review8 : ReviewDetails :=
  {| review_id := 8;
     modelId := 3;
     user := {| user_id := 1; username := Some "u1" |};
     rating := 4 # 1;
     text := None;
     nsfw := true;
     modelVersion := Some {| version_name := "v1" |};
     imagesOnReviews :=
       [ {| image := {| image_id := 21; image_url := "a.png";
                        image_name := Some "front"; image_hash := None |} |};
         {| image := {| image_id := 22; image_url := "b.png";
                        image_name := None; image_hash := None |} |} ] |}.

(** ** Reading the stores *)

(** The ids of the open modals are below the next id the manager hands
    out. *)
Definition fresh_ids (w : World) : Prop :=
  forall m, In m (modals w) -> (fst m < nextModalId w)%nat.

(** The notifications that are not under the key. *)
Definition other_than (id : string) (q : list Notification)
  : list Notification :=
  filter (fun n => negb (has_id id n)) q.

(** The notification a settled report leaves on the queue. *)
Definition terminal_notification (outcome : Outcome) : Notification :=
  match outcome with
  | Resolved => SuccessShown review_reported
  | Rejected error => ErrorShown (unable_to_send error)
  end.

(** The items of the menu, as [ReviewItem] writes them. *)
Definition delete_item : MenuItem :=
  {| item_icon := IconTrash;
     item_color := Some "red";
     item_onClick := handleDeleteReviewH;
     item_label := "Delete review" |}.

Definition report_nsfw_item : MenuItem :=
  {| item_icon := IconFlag;
     item_color := None;
     item_onClick := handleReportReviewH NSFW;
     item_label := "Report as NSFW" |}.

Definition report_tos_item : MenuItem :=
  {| item_icon := IconFlag;
     item_color := None;
     item_onClick := handleReportReviewH TOSViolation;
     item_label := "Report as Terms Violation" |}.


(** * Properties *)

(** ** Helper lemmas *)

Lemma strict_eq_true (a : option Z) (b : Z) :
  strict_eq a b = true <-> a = Some b.
Proof.
  destruct a as [x|]; simpl.
  - rewrite Z.eqb_eq. split; congruence.
  - split; discriminate.
Qed.

Lemma strict_eq_false (a : option Z) (b : Z) :
  strict_eq a b = false <-> a <> Some b.
Proof.
  rewrite <- strict_eq_true. destruct (strict_eq a b); split; congruence.
Qed.

Lemma offers_nil (h : Handler) : ~ offers h [].
Proof. intros [item [[] _]]. Qed.

Lemma offers_cons (h : Handler) (item : MenuItem) (l : list MenuItem) :
  offers h (item :: l) <-> item_onClick item = h \/ offers h l.
Proof.
  unfold offers. split.
  - intros [i [[Heq | Hin] Hh]]; subst; auto. right. exists i. auto.
  - intros [Hh | [i [Hin Hh]]].
    + exists item. simpl. auto.
    + exists i. simpl. auto.
Qed.


Lemma filter_app_log (f : Effect -> bool) (l1 l2 : list Effect) :
  filter f (l1 ++ l2) = filter f l1 ++ filter f l2.
Proof. apply filter_app. Qed.

(** ** The actions menu *)

(** C1: the menu offers delete exactly when the actor of the session is
    the author of the review, and offers each of the two report reasons
    exactly when there is no session or the actor is not the author. *)
Theorem menu_capabilities (hooks : Hooks) (review : ReviewDetails) :
  let menu := card_menu (ReviewItem hooks review) in
  let author := session_id (session hooks) = Some (user_id (user review)) in
  (offers handleDeleteReviewH menu <-> author) /\
  (offers (handleReportReviewH NSFW) menu <->
     session hooks = None \/ ~ author) /\
  (offers (handleReportReviewH TOSViolation) menu <->
     session hooks = None \/ ~ author).
Proof.
  cbv zeta. unfold ReviewItem, card_menu, menu_dropdown, isOwner,
    session_absent.
  destruct (strict_eq (session_id (session hooks)) (user_id (user review)))
    eqn:E.
  - apply strict_eq_true in E.
    destruct (session hooks) as [s|] eqn:Es; [|discriminate E].
    simpl. repeat split;
      rewrite ?offers_cons; intros H;
      repeat match goal with
             | H : _ \/ _ |- _ => destruct H
             | H : offers _ [] |- _ => apply offers_nil in H; contradiction
             end; try discriminate; try contradiction; auto.
  - apply strict_eq_false in E.
    rewrite orb_true_r. simpl. repeat split;
      rewrite ?offers_cons; intros H;
      repeat match goal with
             | H : _ \/ _ |- _ => destruct H
             | H : offers _ [] |- _ => apply offers_nil in H; contradiction
             end; try discriminate; try contradiction; auto.
Qed.

(** ** Delete *)

(** C2: a delete invocation that succeeds invalidates the review cache of
    the review's model, and of no other, and leaves no modal open; one
    that fails invalidates nothing, leaves the modals as they were, and
    raises the error notification titled [Could not delete review] with
    the message of the error. *)
Theorem delete_outcomes (review : ReviewDetails) (w : World) :
  (let w' := exec (delete_invocation review Resolved) w in
   log w' = log w ++ [reviewDelete (review_id review);
                      invalidate (modelId review);
                      closeAllModalsE] /\
   modals w' = [] /\
   notifications w' = notifications w) /\
  (forall error,
   let w' := exec (delete_invocation review (Rejected error)) w in
   log w' = log w ++ [reviewDelete (review_id review);
                      showErrorNotificationE (could_not_delete error)] /\
   filter is_invalidate (log w') = filter is_invalidate (log w) /\
   modals w' = modals w /\
   notifications w' = notifications w ++ [ErrorShown (could_not_delete error)]).
Proof.
  split.
  - cbv zeta. unfold exec, delete_invocation. cbn.
    rewrite <- !app_assoc. auto.
  - intros error. cbv zeta. unfold exec, delete_invocation. cbn.
    rewrite <- !app_assoc. repeat split.
    rewrite filter_app_log. cbn. apply app_nil_r.
Qed.

(** C10: when a delete succeeds, no modal of the manager stays open,
    whichever modals were open before. *)
Theorem delete_success_closes_every_modal (review : ReviewDetails)
  (w : World) :
  let w' := exec (deleteMutation_settle review Resolved) w in
  modals w' = [] /\
  forall id name, ~ In (id, OtherModal name) (modals w').
Proof.
  cbv zeta. unfold exec. cbn. split; [reflexivity|]. intros id name [].
Qed.

(** ** Report *)

(** C3: a report attempt without a session sends no request: the only
    call made is the redirect to the login page with the current path as
    [returnUrl], and the report mutation is left as it was. *)
Theorem report_without_session (hooks : Hooks) (review : ReviewDetails)
  (reason : ReportReason) (w : World) :
  session hooks = None ->
  let w' := exec (click hooks review (handleReportReviewH reason)) w in
  log w' = log w ++ [routerPush ("/login?returnUrl=" ++ asPath hooks)%string] /\
  filter is_request (log w') = filter is_request (log w) /\
  reportStatus w' = reportStatus w /\
  notifications w' = notifications w.
Proof.
  intros Hs. cbv zeta. unfold exec, click, handleReportReview.
  rewrite Hs. cbn. repeat split.
  rewrite filter_app_log. cbn. apply app_nil_r.
Qed.

Lemma report_without_session_witness :
  let hooks := useHooks None "/models/3" world0 in
  let w' := exec (click hooks review7 (handleReportReviewH NSFW)) world0 in
  log w' = [routerPush "/login?returnUrl=/models/3"] /\
  filter is_request (log w') = [] /\
  reportStatus w' = Idle /\
  notifications w' = [].
Proof.
  exact (report_without_session (useHooks None "/models/3" world0)
           review7 NSFW world0 eq_refl).
Defined.



(** C5: when a report succeeds, the review cache of the review's model is
    invalidated first and the success notification [Review reported] is
    raised after it; that notification is on the queue at the end and is
    not the one under the loading key. This holds of the report the hook
    observes and of a report that a later one has overtaken. *)
Theorem report_success (review : ReviewDetails) (w : World) :
  (let w' := exec (reportMutation_settle review Resolved) w in
   log w' = log w ++ [invalidate (modelId review);
                      showSuccessNotificationE review_reported;
                      hideNotificationE "sending-review-report"] /\
   In (SuccessShown review_reported) (notifications w')) /\
  (let w' := exec (reportMutation_settle_earlier review Resolved) w in
   log w' = log w ++ [invalidate (modelId review);
                      showSuccessNotificationE review_reported;
                      hideNotificationE "sending-review-report"] /\
   In (SuccessShown review_reported) (notifications w')) /\
  has_id "sending-review-report" (SuccessShown review_reported) = false.
Proof.
  cbv zeta. unfold exec. cbn. rewrite <- !app_assoc.
  assert (Hin : In (SuccessShown review_reported)
                  (filter (fun n => negb (has_id "sending-review-report" n))
                     (notifications w ++ [SuccessShown review_reported]))).
  { apply filter_In. split; [|reflexivity].
    apply in_or_app. right. left. reflexivity. }
  repeat split; exact Hin.
Qed.


(** ** The delete confirmation *)

(** Confirming the delete modal sends one delete request for the review
    and leaves the modals as they are. *)
Lemma confirm_sends_one_request (hooks : Hooks) (review : ReviewDetails)
  (id : nat) (w : World) :
  let w' := exec (handleConfirm id (delete_settings hooks review)) w in
  log w' = log w ++ [reviewDelete (review_id review)] /\
  modals w' = modals w /\
  deleteStatus w' = Loading.
Proof. cbv zeta. unfold exec. cbn. auto. Qed.

(** Cancelling the delete modal makes no call; the modal is closed. *)
Lemma cancel_sends_nothing (hooks : Hooks) (review : ReviewDetails)
  (id : nat) (w : World) :
  let w' := exec (handleCancel id (delete_settings hooks review)) w in
  log w' = log w /\
  deleteStatus w' = deleteStatus w /\
  forall m, ~ In (id, m) (modals w').
Proof.
  cbv zeta. unfold exec. cbn. repeat split.
  intros m Hin. apply filter_In in Hin. destruct Hin as [_ H].
  cbn in H. rewrite Nat.eqb_refl in H. discriminate.
Qed.

(** C7: the owner opens the delete confirmation while no delete is
    running and confirms. One delete request has been sent and is in
    flight, the modal is still open, and its confirm button is not marked
    busy: the modal holds the [loading] flag of the render that opened
    it. *)
Theorem confirm_not_busy_while_deleting :
  log owner_confirms_delete =
    [openConfirmModalE
       (delete_settings (useHooks owner_session "/models/3" world0) review7);
     reviewDelete 7] /\
  deleteStatus owner_confirms_delete = Loading /\
  map (fun m => (fst m, confirm_busy (snd m)))
      (confirm_modals owner_confirms_delete) = [(0%nat, false)].
Proof. repeat split. Qed.

(** What [handleDeleteReview] does is open the confirm modal with these
    settings. *)
Lemma handleDeleteReview_opens (hooks : Hooks) (review : ReviewDetails) :
  handleDeleteReview hooks review =
  openConfirmModal (delete_settings hooks review).
Proof. reflexivity. Qed.

(** ** The image region *)

(** C8: a review without images has no image region; with one image the
    region holds a carousel without controls and no badge; with two or
    more the carousel has controls and the badge shows the number of
    images. *)
Theorem image_region (hooks : Hooks) (review : ReviewDetails) :
  let n := length (imagesOnReviews review) in
  let region := card_section (ReviewItem hooks review) in
  (n = 0%nat -> region = None) /\
  (n = 1%nat ->
     exists body,
       region = Some {| section_body := body; section_badge := None |} /\
       withControls (carousel_of body) = false /\
       length (slides (carousel_of body)) = 1%nat) /\
  ((2 <= n)%nat ->
     exists body,
       region = Some {| section_body := body; section_badge := Some n |} /\
       withControls (carousel_of body) = true /\
       length (slides (carousel_of body)) = n).
Proof.
  cbv zeta. unfold ReviewItem, card_section, card_section_el, hasImages,
    hasMultipleImages.
  repeat split.
  - intros H. rewrite H. reflexivity.
  - intros H. rewrite H. cbn.
    eexists. split; [reflexivity|].
    destruct (nsfw review); cbn; unfold hasMultipleImages;
      rewrite length_map, H; auto.
  - intros H.
    destruct (Nat.ltb_spec 0 (length (imagesOnReviews review))); [|lia].
    destruct (Nat.ltb_spec 1 (length (imagesOnReviews review))); [|lia].
    eexists. split; [reflexivity|].
    destruct (nsfw review); unfold carousel_of, carousel, withControls,
      slides, hasMultipleImages; rewrite length_map;
      destruct (Nat.ltb_spec 1 (length (imagesOnReviews review)));
      auto; lia.
Qed.

Lemma image_region_witness :
  exists body,
    card_section (ReviewItem (useHooks None "/models/3" world0) review8) =
      Some {| section_body := body; section_badge := Some 2%nat |} /\
    withControls (carousel_of body) = true /\
    length (slides (carousel_of body)) = 2%nat.
Proof.
  apply (image_region (useHooks None "/models/3" world0) review8).
  simpl. lia.
Defined.

(** ** The grid *)

(** C9: for an empty list of reviews the grid column holds the
    placeholder and no grid; for a non-empty list it holds the grid of
    the reviews, rendered by [ReviewItem], and no placeholder. *)
Theorem grid_or_placeholder (items : list ReviewDetails) (loading : bool) :
  let body := grid_body (ModelReviews items loading) in
  (items = [] ->
     body = Paper "There are no reviews for this model yet."
                  "Be the first to let the people know about this model by leaving your review.") /\
  (items <> [] -> body = MasonryGrid items ReviewItemFn).
Proof.
  cbv zeta. split; intros H.
  - rewrite H. reflexivity.
  - destruct items as [|r items]; [congruence|reflexivity].
Qed.

Lemma grid_or_placeholder_witness :
  grid_body (ModelReviews [review7; review8] false) =
  MasonryGrid [review7; review8] ReviewItemFn.
Proof.
  apply (grid_or_placeholder [review7; review8] false). discriminate.
Defined.

(** * Further properties *)

(** ** Helper lemmas *)

Lemma exec_bind (c k : M unit) (w : World) :
  exec (c ;; k) w = exec k (exec c w).
Proof. unfold exec, bind. destruct (c w) as [[] w1]. reflexivity. Qed.

Lemma is_owner_author (hooks : Hooks) (review : ReviewDetails) :
  session_id (session hooks) = Some (user_id (user review)) ->
  isOwner hooks review = true /\ session_absent hooks = false.
Proof.
  intros H. split.
  - apply strict_eq_true. exact H.
  - unfold session_absent. destruct (session hooks); [reflexivity|].
    discriminate H.
Qed.

Lemma menu_of_author (hooks : Hooks) (review : ReviewDetails) :
  session_id (session hooks) = Some (user_id (user review)) ->
  menu_dropdown hooks review = [delete_item].
Proof.
  intros H. destruct (is_owner_author hooks review H) as [Ho Hs].
  unfold menu_dropdown. rewrite Ho, Hs. reflexivity.
Qed.

Lemma menu_of_others (hooks : Hooks) (review : ReviewDetails) :
  session_id (session hooks) <> Some (user_id (user review)) ->
  menu_dropdown hooks review = [report_nsfw_item; report_tos_item].
Proof.
  intros H. apply strict_eq_false in H.
  unfold menu_dropdown, isOwner. rewrite H, orb_true_r. reflexivity.
Qed.

(** ** The menu as a whole *)

(** X1: the menu is the single delete item for the author of the review
    and the two report items, NSFW first, for everyone else; it is never
    empty and never mixes delete with report. *)
Theorem menu_exact (hooks : Hooks) (review : ReviewDetails) :
  let menu := card_menu (ReviewItem hooks review) in
  (session_id (session hooks) = Some (user_id (user review)) ->
     menu = [delete_item]) /\
  (session_id (session hooks) <> Some (user_id (user review)) ->
     menu = [report_nsfw_item; report_tos_item]) /\
  menu <> [].
Proof.
  cbv zeta. unfold ReviewItem, card_menu. repeat split.
  - apply menu_of_author.
  - apply menu_of_others.
  - destruct (strict_eq (session_id (session hooks)) (user_id (user review)))
      eqn:E.
    + apply strict_eq_true in E. rewrite (menu_of_author _ _ E). discriminate.
    + apply strict_eq_false in E. rewrite (menu_of_others _ _ E). discriminate.
Qed.

Lemma menu_exact_witness :
  card_menu (ReviewItem (useHooks owner_session "/models/3" world0) review7)
  = [delete_item].
Proof.
  apply (menu_exact (useHooks owner_session "/models/3" world0) review7).
  reflexivity.
Defined.

(** X2: for a visitor without a session, a click on any item of the menu
    only redirects to the login page with the current path; no request is
    sent, no modal is opened and no notification is raised. *)
Theorem anonymous_click_redirects (hooks : Hooks) (review : ReviewDetails)
  (item : MenuItem) (w : World) :
  session hooks = None ->
  In item (card_menu (ReviewItem hooks review)) ->
  let w' := exec (click hooks review (item_onClick item)) w in
  log w' = log w ++ [routerPush ("/login?returnUrl=" ++ asPath hooks)%string] /\
  modals w' = modals w /\
  notifications w' = notifications w /\
  deleteStatus w' = deleteStatus w /\
  reportStatus w' = reportStatus w.
Proof.
  intros Hs Hin. cbv zeta.
  unfold ReviewItem, card_menu in Hin.
  rewrite menu_of_others in Hin by (rewrite Hs; discriminate).
  assert (Hh : exists reason, item_onClick item = handleReportReviewH reason).
  { destruct Hin as [<- | [<- | []]]; eexists; reflexivity. }
  destruct Hh as [reason ->].
  unfold exec, click, handleReportReview. rewrite Hs. cbn. auto.
Qed.

Lemma anonymous_click_redirects_witness :
  log (exec (click (useHooks None "/models/3" world0) review7
               (item_onClick report_tos_item)) world0)
  = [routerPush "/login?returnUrl=/models/3"].
Proof.
  apply (anonymous_click_redirects (useHooks None "/models/3" world0)
           review7 report_tos_item world0).
  - reflexivity.
  - simpl. auto.
Defined.

(** X3: for the author, a click on any item of the menu opens the delete
    confirmation and does nothing else: no request is sent and neither
    mutation changes status. *)
Theorem author_click_opens_confirmation (hooks : Hooks)
  (review : ReviewDetails) (item : MenuItem) (w : World) :
  session_id (session hooks) = Some (user_id (user review)) ->
  In item (card_menu (ReviewItem hooks review)) ->
  let w' := exec (click hooks review (item_onClick item)) w in
  log w' = log w ++ [openConfirmModalE (delete_settings hooks review)] /\
  modals w' =
    modals w ++ [(nextModalId w, ConfirmModal (delete_settings hooks review))] /\
  deleteStatus w' = deleteStatus w /\
  reportStatus w' = reportStatus w /\
  notifications w' = notifications w.
Proof.
  intros Ha Hin. cbv zeta.
  unfold ReviewItem, card_menu in Hin.
  rewrite (menu_of_author _ _ Ha) in Hin.
  destruct Hin as [<- | []].
  unfold exec. cbn. auto.
Qed.

Lemma author_click_opens_confirmation_witness :
  let hooks := useHooks owner_session "/models/3" world0 in
  let w' := exec (click hooks review7 (item_onClick delete_item)) world0 in
  log w' = [openConfirmModalE (delete_settings hooks review7)] /\
  modals w' = [(0%nat, ConfirmModal (delete_settings hooks review7))] /\
  deleteStatus w' = Idle /\
  reportStatus w' = Idle /\
  notifications w' = [].
Proof.
  apply (author_click_opens_confirmation
           (useHooks owner_session "/models/3" world0) review7 delete_item
           world0).
  - reflexivity.
  - simpl. auto.
Defined.



(** ** The card *)

(** X5: the placeholder image is the image of the first attachment and is
    missing only for a review without attachments; with at least one
    attachment the image region holds the carousel itself for a review
    that is not sensitive, and for a sensitive one the carousel wrapped
    with the first image as placeholder. *)
Theorem first_image_and_wrapper (hooks : Hooks) (review : ReviewDetails) :
  firstImage review = option_map image (hd_error (imagesOnReviews review)) /\
  (forall i rest,
     imagesOnReviews review = i :: rest ->
     option_map section_body (card_section (ReviewItem hooks review)) =
     Some (if nsfw review
           then SensitiveContent (Some (image i)) (carousel review)
           else Plain (carousel review))).
Proof.
  split.
  - unfold firstImage, hasImages.
    destruct (imagesOnReviews review); reflexivity.
  - intros i rest H.
    unfold ReviewItem, card_section, card_section_el, firstImage, hasImages.
    rewrite H. simpl. destruct (nsfw review); reflexivity.
Qed.

Lemma first_image_and_wrapper_witness :
  option_map section_body
    (card_section (ReviewItem (useHooks None "/models/3" world0) review8)) =
  Some (SensitiveContent
          (Some {| image_id := 21; image_url := "a.png";
                   image_name := Some "front"; image_hash := None |})
          (carousel review8)).
Proof.
  exact (proj2 (first_image_and_wrapper (useHooks None "/models/3" world0)
                  review8) _ _ eq_refl).
Defined.

(** X8: the rating is shown large exactly when the review has no
    attachments and no text, a missing text and an empty one alike; it is
    centred in exactly the same case. *)
Theorem rating_enlarged (hooks : Hooks) (review : ReviewDetails) :
  let r := card_rating (ReviewItem hooks review) in
  let bare := imagesOnReviews review = [] /\
              (text review = None \/ text review = Some "") in
  (rating_size r = Some "xl" <-> bare) /\
  (rating_size r = None <-> ~ bare) /\
  (rating_alignSelf r = Some "center" <-> bare) /\
  (rating_alignSelf r = None <-> ~ bare).
Proof.
  cbv zeta.
  unfold ReviewItem, card_rating, rating_el, rating_size, rating_alignSelf,
    hasImages.
  assert (Hb : negb (0 <? length (imagesOnReviews review))%nat
               && not_text (text review) = true <->
               imagesOnReviews review = [] /\
               (text review = None \/ text review = Some "")).
  { rewrite andb_true_iff. unfold not_text.
    destruct (imagesOnReviews review) as [|i l]; simpl.
    - destruct (text review) as [t|].
      + rewrite String.eqb_eq. split.
        * intros [_ ->]. auto.
        * intros [_ [H | H]]; [discriminate | injection H as ->; auto].
      + split; auto.
    - split; [intros [H _] | intros [H _]]; discriminate. }
  destruct (negb (0 <? length (imagesOnReviews review))%nat
            && not_text (text review)) eqn:E.
  - assert (Hbare := proj1 Hb eq_refl).
    repeat split; intros; auto; try discriminate; try contradiction;
      tauto.
  - assert (Hn : ~ (imagesOnReviews review = [] /\
                    (text review = None \/ text review = Some ""))).
    { intros H. apply Hb in H. discriminate. }
    repeat split; intros; auto; try discriminate; try contradiction;
      tauto.
Qed.

(** ** The confirmation, through the modals manager *)

Lemma find_fresh_modal (l : list (nat * Modal)) (n : nat)
  (s : ConfirmModalSettings) :
  (forall m, In m l -> (fst m < n)%nat) ->
  find (fun m : nat * ConfirmModalSettings => Nat.eqb (fst m) n)
    (flat_map (fun m : nat * Modal =>
                 match snd m with
                 | ConfirmModal s' => [(fst m, s')]
                 | OtherModal _ => []
                 end) (l ++ [(n, ConfirmModal s)])) = Some (n, s).
Proof.
  induction l as [|[i m] l IH]; intros Hf; simpl.
  - rewrite Nat.eqb_refl. reflexivity.
  - assert (Hi : (i < n)%nat) by (apply (Hf (i, m)); left; reflexivity).
    assert (Hl : forall m', In m' l -> (fst m' < n)%nat)
      by (intros m' Hin; apply Hf; right; exact Hin).
    destruct m as [s'|name]; simpl.
    + destruct (Nat.eqb_spec i n); [lia|]. apply IH. exact Hl.
    + apply IH. exact Hl.
Qed.

Lemma filter_fresh_modal (l : list (nat * Modal)) (n : nat) (x : Modal) :
  (forall m, In m l -> (fst m < n)%nat) ->
  filter (fun m : nat * Modal => negb (Nat.eqb (fst m) n)) (l ++ [(n, x)]) = l.
Proof.
  induction l as [|[i m] l IH]; intros Hf; simpl.
  - rewrite Nat.eqb_refl. reflexivity.
  - assert (Hi : (i < n)%nat) by (apply (Hf (i, m)); left; reflexivity).
    destruct (Nat.eqb_spec i n); [lia|]. simpl. f_equal.
    apply IH. intros m' Hin. apply Hf. right. exact Hin.
Qed.

Lemma stored_settings_modals (id : nat) (w1 w2 : World) :
  modals w1 = modals w2 -> stored_settings id w1 = stored_settings id w2.
Proof.
  intros H. unfold stored_settings, confirm_modals. rewrite H. reflexivity.
Qed.

Lemma stored_after_open (hooks : Hooks) (review : ReviewDetails) (w : World) :
  fresh_ids w ->
  stored_settings (nextModalId w) (exec (handleDeleteReview hooks review) w)
  = Some (delete_settings hooks review).
Proof.
  intros Hf. unfold stored_settings, confirm_modals.
  change (modals (exec (handleDeleteReview hooks review) w))
    with (modals w ++
          [(nextModalId w, ConfirmModal (delete_settings hooks review))]).
  rewrite (find_fresh_modal (modals w) (nextModalId w)
             (delete_settings hooks review) Hf).
  reflexivity.
Qed.

Lemma clickConfirm_stored (id : nat) (s : ConfirmModalSettings) (w : World) :
  stored_settings id w = Some s ->
  exec (clickConfirm id) w = exec (handleConfirm id s) w.
Proof. intros H. unfold exec, clickConfirm. rewrite H. reflexivity. Qed.

Lemma clickCancel_stored (id : nat) (s : ConfirmModalSettings) (w : World) :
  stored_settings id w = Some s ->
  exec (clickCancel id) w = exec (handleCancel id s) w.
Proof. intros H. unfold exec, clickCancel. rewrite H. reflexivity. Qed.

(** The settings stay stored over a confirm and over a failed delete. *)
Lemma stored_after_confirm (hooks : Hooks) (review : ReviewDetails)
  (id : nat) (w : World) :
  stored_settings id
    (exec (handleConfirm id (delete_settings hooks review)) w)
  = stored_settings id w.
Proof. apply stored_settings_modals. reflexivity. Qed.

Lemma stored_after_failure (review : ReviewDetails) (error : TRPCClientError)
  (id : nat) (w : World) :
  stored_settings id (exec (deleteMutation_settle review (Rejected error)) w)
  = stored_settings id w.
Proof. apply stored_settings_modals. reflexivity. Qed.

(** X10: opening the delete confirmation and cancelling it leaves the
    open modals, both mutations and the notifications as they were; the
    only call made is the opening of the modal. *)
Theorem open_then_cancel (hooks : Hooks) (review : ReviewDetails)
  (w : World) :
  fresh_ids w ->
  let w' := exec (handleDeleteReview hooks review ;;
                  clickCancel (nextModalId w)) w in
  modals w' = modals w /\
  log w' = log w ++ [openConfirmModalE (delete_settings hooks review)] /\
  deleteStatus w' = deleteStatus w /\
  reportStatus w' = reportStatus w /\
  notifications w' = notifications w.
Proof.
  intros Hf. cbv zeta. rewrite exec_bind.
  rewrite (clickCancel_stored _ _ _ (stored_after_open hooks review w Hf)).
  unfold exec. cbn. repeat split.
  apply filter_fresh_modal. exact Hf.
Qed.

Lemma open_then_cancel_witness :
  let hooks := useHooks owner_session "/models/3" world0 in
  let w' := exec (handleDeleteReview hooks review7 ;; clickCancel 0) world0 in
  modals w' = [] /\
  log w' = [openConfirmModalE (delete_settings hooks review7)] /\
  deleteStatus w' = Idle /\
  reportStatus w' = Idle /\
  notifications w' = [].
Proof.
  apply (open_then_cancel (useHooks owner_session "/models/3" world0)
           review7 world0).
  intros m [].
Defined.

(** X11: when the delete confirmation was opened while no delete was
    running, confirming it twice sends two delete requests for the
    review; the modal is still stored with its confirm button not marked
    busy. *)
Theorem confirm_twice_sends_twice (hooks : Hooks) (review : ReviewDetails)
  (w : World) :
  fresh_ids w ->
  deleteIsLoading hooks = false ->
  let id := nextModalId w in
  let w' := exec (handleDeleteReview hooks review ;;
                  clickConfirm id ;; clickConfirm id) w in
  log w' = log w ++ [openConfirmModalE (delete_settings hooks review);
                     reviewDelete (review_id review);
                     reviewDelete (review_id review)] /\
  deleteStatus w' = Loading /\
  option_map confirm_busy (stored_settings id w') = Some false.
Proof.
  intros Hf Hl. cbv zeta. rewrite !exec_bind.
  pose proof (stored_after_open hooks review w Hf) as H1.
  rewrite (clickConfirm_stored _ _ _ H1).
  pose proof (stored_after_confirm hooks review (nextModalId w)
                (exec (handleDeleteReview hooks review) w)) as H2.
  rewrite H1 in H2.
  rewrite (clickConfirm_stored _ _ _ H2).
  repeat split.
  - unfold exec. cbn. rewrite <- !app_assoc. reflexivity.
  - rewrite stored_after_confirm, H2. unfold confirm_busy. cbn.
    rewrite Hl. reflexivity.
Qed.

Lemma confirm_twice_sends_twice_witness :
  let hooks := useHooks owner_session "/models/3" world0 in
  let w' := exec (handleDeleteReview hooks review7 ;;
                  clickConfirm 0 ;; clickConfirm 0) world0 in
  log w' = [openConfirmModalE (delete_settings hooks review7);
            reviewDelete 7; reviewDelete 7] /\
  deleteStatus w' = Loading /\
  option_map confirm_busy (stored_settings 0 w') = Some false.
Proof.
  apply (confirm_twice_sends_twice
           (useHooks owner_session "/models/3" world0) review7 world0).
  - intros m [].
  - reflexivity.
Defined.

(** X12: after a delete that failed, the confirmation is still open, and
    confirming it again sends a new delete request for the review. *)
Theorem confirm_again_after_failure (hooks : Hooks) (review : ReviewDetails)
  (error : TRPCClientError) (w : World) :
  fresh_ids w ->
  let id := nextModalId w in
  let w' := exec (handleDeleteReview hooks review ;;
                  clickConfirm id ;;
                  deleteMutation_settle review (Rejected error) ;;
                  clickConfirm id) w in
  log w' = log w ++ [openConfirmModalE (delete_settings hooks review);
                     reviewDelete (review_id review);
                     showErrorNotificationE (could_not_delete error);
                     reviewDelete (review_id review)] /\
  deleteStatus w' = Loading /\
  stored_settings id w' = Some (delete_settings hooks review).
Proof.
  intros Hf. cbv zeta. rewrite !exec_bind.
  pose proof (stored_after_open hooks review w Hf) as H1.
  rewrite (clickConfirm_stored _ _ _ H1).
  pose proof (stored_after_confirm hooks review (nextModalId w)
                (exec (handleDeleteReview hooks review) w)) as H2.
  rewrite H1 in H2.
  pose proof (stored_after_failure review error (nextModalId w)
                (exec (handleConfirm (nextModalId w)
                         (delete_settings hooks review))
                   (exec (handleDeleteReview hooks review) w))) as H3.
  rewrite H2 in H3.
  rewrite (clickConfirm_stored _ _ _ H3).
  repeat split.
  - unfold exec. cbn. rewrite <- !app_assoc. reflexivity.
  - rewrite stored_after_confirm. exact H3.
Qed.

Lemma confirm_again_after_failure_witness :
  let hooks := useHooks owner_session "/models/3" world0 in
  let w' := exec (handleDeleteReview hooks review7 ;;
                  clickConfirm 0 ;;
                  deleteMutation_settle review7 (Rejected (mkError "gone")) ;;
                  clickConfirm 0) world0 in
  log w' = [openConfirmModalE (delete_settings hooks review7);
            reviewDelete 7;
            showErrorNotificationE (could_not_delete (mkError "gone"));
            reviewDelete 7] /\
  deleteStatus w' = Loading /\
  stored_settings 0 w' = Some (delete_settings hooks review7).
Proof.
  apply (confirm_again_after_failure
           (useHooks owner_session "/models/3" world0) review7
           (mkError "gone") world0).
  intros m [].
Defined.

(** ** Report and delete side by side *)

Lemma visible_app_unkeyed (id : string) (q : list Notification)
  (n : Notification) :
  has_id id n = false ->
  existsb (has_id id) (q ++ [n]) = existsb (has_id id) q.
Proof.
  intros H. rewrite existsb_app. simpl. rewrite H.
  rewrite !orb_false_r. reflexivity.
Qed.

(** X13: a report, sent and settled either way, opens and closes no modal
    and leaves the delete mutation as it was; a delete, sent and settled
    either way, leaves the report mutation as it was and neither shows
    nor hides the loading notification of a report. *)
Theorem report_and_delete_independent (review : ReviewDetails)
  (reason : ReportReason) (outcome : Outcome) (w : World) :
  (let w' := exec (reportMutation_mutate review reason ;;
                   reportMutation_settle review outcome) w in
   modals w' = modals w /\
   nextModalId w' = nextModalId w /\
   deleteStatus w' = deleteStatus w) /\
  (let w' := exec (delete_invocation review outcome) w in
   reportStatus w' = reportStatus w /\
   visible "sending-review-report" w' = visible "sending-review-report" w).
Proof.
  split; cbv zeta.
  - unfold exec. destruct outcome; cbn; auto.
  - unfold exec, delete_invocation, visible. destruct outcome; cbn.
    + auto.
    + split; [reflexivity|]. apply visible_app_unkeyed. reflexivity.
Qed.

Lemma other_than_app_unkeyed (id : string) (q : list Notification)
  (n : Notification) :
  has_id id n = false ->
  other_than id (q ++ [n]) = other_than id q ++ [n].
Proof.
  intros H. unfold other_than. rewrite filter_app. simpl. rewrite H.
  reflexivity.
Qed.

(** X14: when a report settles, the queue is left with the notifications
    that were not under the loading key, in their order, followed by the
    success or the error notification of the outcome; no notification
    under another key, or under none, is dismissed. *)
Theorem settle_keeps_other_notifications (review : ReviewDetails)
  (outcome : Outcome) (w : World) :
  let w' := exec (reportMutation_settle review outcome) w in
  notifications w' =
    other_than "sending-review-report" (notifications w) ++
      [terminal_notification outcome] /\
  (forall n, In n (notifications w) ->
             has_id "sending-review-report" n = false ->
             In n (notifications w')).
Proof.
  cbv zeta.
  assert (H : notifications (exec (reportMutation_settle review outcome) w) =
              other_than "sending-review-report" (notifications w) ++
                [terminal_notification outcome]).
  { unfold exec. destruct outcome; cbn;
      apply (other_than_app_unkeyed "sending-review-report"); reflexivity. }
  split; [exact H|].
  intros n Hin Hn. rewrite H. apply in_or_app. left.
  unfold other_than. apply filter_In. split; [exact Hin|].
  rewrite Hn. reflexivity.
Qed.
